(** * navigator_auth.exceptions: the authentication error taxonomy

    A shallow embedding of [navigator_auth/exceptions.pyx] (a Cython module)
    and the properties of its constructors and accessors.

    The module declares the extension type [AuthException(Exception)] and the
    classes derived from it.  Every [__init__] is embedded as a computation
    over the instance under construction, in a state-and-exception monad;
    Python's argument binding and Cython's typed-argument conversions
    ([str message], [int status]) are written out, since several properties
    depend on which calls a signature accepts. *)

From stdpp Require Import gmap strings pretty finite.

Local Open Scope Z_scope.
Local Open Scope string_scope.

(** ** Python values and exceptions *)

(** The fragment of Python's values modelled here: [None], booleans,
    integers and text.  Floats, and objects that define [__int__] or
    [__index__], are outside of it; no statement below depends on the
    fragment being all of Python's values. *)
Inductive pyobj : Type :=
  | PyNone
  | PyBool (b : bool)
  | PyInt (z : Z)
  | PyStr (s : string).

#[global] Instance pyobj_eq_dec : EqDecision pyobj.
Proof. solve_decision. Defined.

(** The exceptions that calling into the module can raise. *)
Inductive pyexc : Type :=
  | TypeError
  | OverflowError
  | KeyError
  | AttributeError.

#[global] Instance pyexc_eq_dec : EqDecision pyexc.
Proof. solve_decision. Defined.

Inductive result (A : Type) : Type :=
  | Ok (a : A)
  | Raise (e : pyexc).
Arguments Ok {A} a.
Arguments Raise {A} e.

#[global] Instance result_ret : MRet result := fun A a => Ok a.
#[global] Instance result_bind : MBind result := fun A B f r =>
  match r with
  | Ok a => f a
  | Raise e => Raise e
  end.

(** Truth value of an object, as tested by [or]. *)
Definition truthy (v : pyobj) : bool :=
  match v with
  | PyNone => false
  | PyBool b => b
  | PyInt z => negb (z =? 0)%Z
  | PyStr s => negb (String.eqb s EmptyString)
  end.

(** [a or b]. *)
Definition py_or (a b : pyobj) : pyobj := if truthy a then a else b.

(** The conversion an f-string field without a format specification
    applies to its value. *)
Definition py_format (v : pyobj) : string :=
  match v with
  | PyNone => "None"
  | PyBool true => "True"
  | PyBool false => "False"
  | PyInt z => pretty z
  | PyStr s => s
  end.

(** ** The classes of the module *)

Inductive cls : Type :=
  | AuthException
  | ConfigError
  | UserNotFound
  | Unauthorized
  | InvalidAuth
  | FailedAuth
  | Forbidden
  | AuthExpired.

#[global] Instance cls_eq_dec : EqDecision cls.
Proof. solve_decision. Defined.

#[global, refine] Instance cls_finite : Finite cls :=
  {| enum := [AuthException; ConfigError; UserNotFound; Unauthorized;
              InvalidAuth; FailedAuth; Forbidden; AuthExpired] |}.
Proof.
  - by apply (bool_decide_unpack _).
  - by intros []; apply (bool_decide_unpack _).
Defined.

(** Every class statement other than the first names [AuthException] as its
    base. *)
Definition tp_base (c : cls) : option cls :=
  match c with
  | AuthException => None
  | _ => Some AuthException
  end.

Definition is_subtype (c : cls) : bool := bool_decide (tp_base c = Some AuthException).

(** The classes derived from the base. *)
Definition subtypes : list cls := filter (fun c => is_subtype c = true) (enum cls).

(** ** Instances *)

(** An exception object: its class, the [args] tuple kept by
    [BaseException], and the instance dictionary that holds the attributes
    assigned in [__init__]. *)
Record instance : Type := Instance {
  ob_type : cls;
  exc_args : list pyobj;
  ob_dict : gmap string pyobj
}.

(** [status: int = 400] in the body of [AuthException]: an attribute of the
    class, found by attribute lookup when the instance has none of that
    name. *)
Definition tp_dict (name : string) : option pyobj :=
  if decide (name = "status") then Some (PyInt 400) else None.

(** Computations over [self] that may raise. *)
Definition M (A : Type) : Type := instance -> result (A * instance).

#[global] Instance M_ret : MRet M := fun A a self => Ok (a, self).
#[global] Instance M_bind : MBind M := fun A B f m self =>
  match m self with
  | Ok (a, self') => f a self'
  | Raise e => Raise e
  end.

Definition lift {A : Type} (r : result A) : M A := fun self =>
  match r with
  | Ok a => Ok (a, self)
  | Raise e => Raise e
  end.

(** [self.name = v]. *)
Definition setattr (name : string) (v : pyobj) : M unit := fun self =>
  Ok (tt, {| ob_type := ob_type self;
             exc_args := exc_args self;
             ob_dict := <[name := v]> (ob_dict self) |}).

(** [self.name]. *)
Definition getattr (name : string) : M pyobj := fun self =>
  match ob_dict self !! name with
  | Some v => Ok (v, self)
  | None =>
      match tp_dict name with
      | Some v => Ok (v, self)
      | None => Raise AttributeError
      end
  end.

(** [d[key]]. *)
Definition getitem (d : gmap string pyobj) (key : string) : result pyobj :=
  match d !! key with
  | Some v => Ok v
  | None => Raise KeyError
  end.

(** ** Calls: argument binding and typed arguments *)

(** Binding of positional and keyword arguments to the named parameters of a
    [def]: each parameter receives the positional argument at its place, or
    else the keyword argument of its name, or nothing ([None] here: the
    default applies).  Too many positional arguments, or a parameter given
    both ways, is a [TypeError].  The keyword arguments left over are
    returned. *)
Fixpoint bind_params (names : list string) (args : list pyobj)
    (kwargs : gmap string pyobj)
    : result (list (option pyobj) * gmap string pyobj) :=
  match names, args with
  | [], [] => Ok ([], kwargs)
  | [], _ :: _ => Raise TypeError
  | n :: names', a :: args' =>
      if decide (is_Some (kwargs !! n)) then Raise TypeError
      else
        r ← bind_params names' args' kwargs;
        mret (Some a :: r.1, r.2)
  | n :: names', [] =>
      r ← bind_params names' [] (delete n kwargs);
      mret (kwargs !! n :: r.1, r.2)
  end.

(** An argument declared [str]: text or [None]. *)
Definition arg_str (v : pyobj) : result pyobj :=
  match v with
  | PyStr _ | PyNone => Ok v
  | _ => Raise TypeError
  end.

Definition INT_MIN : Z := - 2 ^ 31.
Definition INT_MAX : Z := 2 ^ 31 - 1.

(** An argument declared [int] in a [def] of a [.pyx] file is a C [int]:
    the object is converted on entry.  On the fragment: an integer must fit
    a C [int], a boolean counts as 0 or 1, and [None] and text are refused.
    (Outside of the fragment the conversion goes through [__int__], so that
    a float is truncated.) *)
Definition arg_int (v : pyobj) : result Z :=
  match v with
  | PyInt z =>
      if decide (INT_MIN <= z <= INT_MAX) then Ok z else Raise OverflowError
  | PyBool b => Ok (if b then 1 else 0)
  | _ => Raise TypeError
  end.

(** [int(status)] for a C [int]. *)
Definition py_int (z : Z) : pyobj := PyInt z.

(** [def __init__(self, str message, int status = 400, **kwargs)] *)
Definition AuthException_args (args : list pyobj) (kwargs : gmap string pyobj)
    : result (pyobj * Z * gmap string pyobj) :=
  r ← bind_params ["message"; "status"] args kwargs;
  match r.1 with
  | [Some m; s] =>
      status ← arg_int (default (PyInt 400) s);
      message ← arg_str m;
      mret (message, status, r.2)
  | _ => Raise TypeError
  end.

(** [def __init__(self, str message = None)] *)
Definition subtype_args (args : list pyobj) (kwargs : gmap string pyobj)
    : result pyobj :=
  r ← bind_params ["message"] args kwargs;
  match r.1 with
  | [m] =>
      if decide (r.2 = ∅) then arg_str (default PyNone m) else Raise TypeError
  | _ => Raise TypeError
  end.

(** ** The constructors *)

(** [Exception.__init__(self, *args)]. *)
Definition BaseException__init__ (args : list pyobj) : M unit := fun self =>
  Ok (tt, {| ob_type := ob_type self;
             exc_args := args;
             ob_dict := ob_dict self |}).

Definition AuthException__init__ (args : list pyobj)
    (kwargs : gmap string pyobj) : M unit :=
  a ← lift (AuthException_args args kwargs);
  let '(message, status, kwargs) := a in
  BaseException__init__ [message];;
  setattr "stacktrace" PyNone;;
  (if decide ("stacktrace" ∈ dom kwargs) then
     v ← lift (getitem kwargs "stacktrace");
     setattr "stacktrace" v
   else mret tt);;
  setattr "message" message;;
  setattr "status" (py_int status).

Definition ConfigError__init__ (args : list pyobj)
    (kwargs : gmap string pyobj) : M unit :=
  message ← lift (subtype_args args kwargs);
  AuthException__init__
    [py_or message (PyStr "Auth Configuration Error.")]
    {["status" := PyInt 500]}.

Definition UserNotFound__init__ (args : list pyobj)
    (kwargs : gmap string pyobj) : M unit :=
  message ← lift (subtype_args args kwargs);
  AuthException__init__
    [py_or message (PyStr "User doesn't exists.")]
    {["status" := PyInt 404]}.

Definition Unauthorized__init__ (args : list pyobj)
    (kwargs : gmap string pyobj) : M unit :=
  message ← lift (subtype_args args kwargs);
  AuthException__init__
    [py_or message (PyStr "Unauthorized")]
    {["status" := PyInt 401]}.

Definition InvalidAuth__init__ (args : list pyobj)
    (kwargs : gmap string pyobj) : M unit :=
  message ← lift (subtype_args args kwargs);
  AuthException__init__
    [py_or message (PyStr "Invalid Authentication")]
    {["status" := PyInt 401]}.

Definition FailedAuth__init__ (args : list pyobj)
    (kwargs : gmap string pyobj) : M unit :=
  message ← lift (subtype_args args kwargs);
  AuthException__init__
    [py_or message (PyStr "Failed Authorization")]
    {["status" := PyInt 403]}.

Definition Forbidden__init__ (args : list pyobj)
    (kwargs : gmap string pyobj) : M unit :=
  message ← lift (subtype_args args kwargs);
  AuthException__init__
    [py_or message (PyStr "Forbidden")]
    {["status" := PyInt 403]}.

Definition AuthExpired__init__ (args : list pyobj)
    (kwargs : gmap string pyobj) : M unit :=
  message ← lift (subtype_args args kwargs);
  AuthException__init__
    [py_or message (PyStr "Gone: Authentication Expired.")]
    {["status" := PyInt 410]}.

(** The [__init__] a class defines. *)
Definition init_of (c : cls) : list pyobj -> gmap string pyobj -> M unit :=
  match c with
  | AuthException => AuthException__init__
  | ConfigError => ConfigError__init__
  | UserNotFound => UserNotFound__init__
  | Unauthorized => Unauthorized__init__
  | InvalidAuth => InvalidAuth__init__
  | FailedAuth => FailedAuth__init__
  | Forbidden => Forbidden__init__
  | AuthExpired => AuthExpired__init__
  end.

(** [isinstance(self, c)]: the class of [self] is [c] or derives from it. *)
Definition isinstance (self : instance) (c : cls) : bool :=
  bool_decide (ob_type self = c)
  || bool_decide (tp_base (ob_type self) = Some c).

(** The call [c.__init__(self, ...)].  The method of an extension type
    accepts an instance of [c] or of a class derived from [c]; applied to
    any other object it raises [TypeError] and writes nothing. *)
Definition tp_init (c : cls) (args : list pyobj)
    (kwargs : gmap string pyobj) : M unit := fun self =>
  if isinstance self c then init_of c args kwargs self else Raise TypeError.

(** [Exception.__new__(cls, *args, **kwargs)]: a fresh object that keeps the
    positional arguments. *)
Definition BaseException__new__ (c : cls) (args : list pyobj) : instance :=
  {| ob_type := c; exc_args := args; ob_dict := ∅ |}.

(** The call of a class on its arguments: allocate, then initialise; the instance is
    returned only when [__init__] does not raise. *)
Definition construct (c : cls) (args : list pyobj)
    (kwargs : gmap string pyobj) : result instance :=
  match tp_init c args kwargs (BaseException__new__ c args) with
  | Ok (_, self) => Ok self
  | Raise e => Raise e
  end.

(** ** The methods *)

(** [__name__] inside the module. *)
Definition module_name : string := "navigator_auth.exceptions".

(** [def __str__(self): return f"{__name__}: {self.message}"] *)
Definition AuthException__str__ : M string :=
  message ← getattr "message";
  mret (module_name +:+ ": " +:+ py_format message).

(** [def get(self): return self.message] *)
Definition AuthException_get : M pyobj := getattr "message".

(** ** The table of defaults

    The message and the status each subtype passes to the base constructor,
    tabulated; [construct_subtype] below checks the table against the
    constructors. *)

Definition default_message (c : cls) : option string :=
  match c with
  | AuthException => None
  | ConfigError => Some "Auth Configuration Error."
  | UserNotFound => Some "User doesn't exists."
  | Unauthorized => Some "Unauthorized"
  | InvalidAuth => Some "Invalid Authentication"
  | FailedAuth => Some "Failed Authorization"
  | Forbidden => Some "Forbidden"
  | AuthExpired => Some "Gone: Authentication Expired."
  end.

Definition default_status (c : cls) : Z :=
  match c with
  | AuthException => 400
  | ConfigError => 500
  | UserNotFound => 404
  | Unauthorized => 401
  | InvalidAuth => 401
  | FailedAuth => 403
  | Forbidden => 403
  | AuthExpired => 410
  end.

(** Attribute reads on a finished instance. *)
Definition attr (name : string) (self : instance) : option pyobj :=
  ob_dict self !! name.

(** [constructs c args kwargs msg st]: the call returns an instance whose
    [message] is [msg] and whose [status] is the integer [st]. *)
Definition constructs (c : cls) (args : list pyobj)
    (kwargs : gmap string pyobj) (msg : pyobj) (st : Z) : Prop :=
  exists self, construct c args kwargs = Ok self
    /\ attr "message" self = Some msg
    /\ attr "status" self = Some (PyInt st).

(** The argument a call supplies for the parameter at position [i] named
    [name], if any. *)
Definition supplied (i : nat) (name : string) (args : list pyobj)
    (kwargs : gmap string pyobj) : option pyobj :=
  match args !! i with
  | Some v => Some v
  | None => kwargs !! name
  end.

(** The attributes [AuthException.__init__] leaves on the instance. *)
Definition attrs (message : pyobj) (status : Z) (stacktrace : pyobj)
    (d : gmap string pyobj) : gmap string pyobj :=
  <["status" := PyInt status]>
    (<["message" := message]> (<["stacktrace" := stacktrace]> d)).

(** The read operations a handler performs on an instance, and a run of
    them in sequence. *)
Inductive read : Type :=
  | Get
  | Str.

Definition perform (r : read) : M pyobj :=
  match r with
  | Get => AuthException_get
  | Str => s ← AuthException__str__; mret (PyStr s)
  end.

Fixpoint perform_all (rs : list read) : M (list pyobj) :=
  match rs with
  | [] => mret []
  | r :: rs' =>
      v ← perform r;
      vs ← perform_all rs';
      mret (v :: vs)
  end.

(** What a read returns on an instance whose message is [m]. *)
Definition answer (m : pyobj) (r : read) : pyobj :=
  match r with
  | Get => m
  | Str => PyStr ("navigator_auth.exceptions: " +:+ py_format m)
  end.

(** ** Argument binding *)

Ltac unmonad :=
  unfold mbind, mret, M_bind, M_ret, result_bind, result_ret, lift in *;
  cbn [fst snd] in *.

Lemma arg_str_inv (v m : pyobj) :
  arg_str v = Ok m -> m = v /\ (m = PyNone \/ exists s, m = PyStr s).
Proof.
  destruct v; cbn; intros H; try discriminate; injection H as <-; eauto.
Qed.

Lemma arg_int_range (v : pyobj) (z : Z) :
  arg_int v = Ok z -> INT_MIN <= z <= INT_MAX.
Proof.
  destruct v as [|[]| |]; cbn; try discriminate.
  - intros [= <-]. by vm_compute.
  - intros [= <-]. by vm_compute.
  - case_decide; [|discriminate]. by intros [= <-].
Qed.

(** Keyword arguments that name no parameter pass through the binding
    untouched; those that name one are consumed. *)
Lemma bind_params_rest (names : list string) :
  forall (args : list pyobj) (kwargs rest : gmap string pyobj)
         (vs : list (option pyobj)),
    bind_params names args kwargs = Ok (vs, rest) ->
    forall k, rest !! k = if decide (k ∈ drop (length args) names)
                          then None else kwargs !! k.
Proof.
  induction names as [|n names IH]; intros args kwargs rest vs H k.
  - destruct args; [|discriminate]. injection H as _ <-.
    cbn. case_decide as Hk; [by apply elem_of_nil in Hk | done].
  - destruct args as [|a args]; cbn in H.
    + destruct (bind_params names [] (delete n kwargs)) as [[vs' rest']|e]
        eqn:E; unmonad; [|discriminate].
      injection H as _ <-. rewrite (IH _ _ _ _ E k). cbn [length drop].
      destruct (decide (k = n)) as [->|Hne].
      * rewrite lookup_delete_eq.
        destruct (decide (n ∈ n :: names)) as [_|Hn]; [by case_decide|].
        destruct Hn. by left.
      * rewrite lookup_delete_ne by done.
        apply decide_ext. rewrite elem_of_cons. cbn. tauto.
    + case_decide; [discriminate|].
      destruct (bind_params names args kwargs) as [[vs' rest']|e]
        eqn:E; unmonad; [|discriminate].
      injection H as _ <-. by rewrite (IH _ _ _ _ E k).
Qed.

(** A call with more positional arguments than parameters is refused. *)
Lemma bind_params_too_many (names : list string) :
  forall (args : list pyobj) (kwargs : gmap string pyobj),
    (length names < length args)%nat ->
    bind_params names args kwargs = Raise TypeError.
Proof.
  induction names as [|n names IH]; intros [|a args] kwargs Hlen;
    cbn in *; try lia; try done.
  case_decide; [done|]. rewrite IH by lia. done.
Qed.

(** What a successful binding of the base signature yields: the message and
    the status are the supplied ones after conversion (400 when no status is
    supplied), and [kwargs] collects the options of any other name. *)
Lemma AuthException_args_inv (args : list pyobj)
    (kwargs kw : gmap string pyobj) (m : pyobj) (z : Z) :
  AuthException_args args kwargs = Ok (m, z, kw) ->
  supplied 0 "message" args kwargs = Some m
  /\ (m = PyNone \/ exists s, m = PyStr s)
  /\ arg_int (default (PyInt 400) (supplied 1 "status" args kwargs)) = Ok z
  /\ kw !! "stacktrace" = kwargs !! "stacktrace".
Proof.
  unfold AuthException_args. intros H.
  destruct (bind_params ["message"; "status"] args kwargs)
    as [[vs rest]|e] eqn:E; unmonad; [|discriminate].
  assert (Hst := bind_params_rest _ _ _ _ _ E "stacktrace").
  assert (rest !! "stacktrace" = kwargs !! "stacktrace") as Hrest.
  { rewrite Hst. destruct args as [|? [|? [|? ?]]]; cbn; by case_decide. }
  clear Hst. unfold supplied.
  destruct args as [|a [|b [|c args]]]; cbn in E.
  - unmonad. injection E as <- <-.
    destruct (kwargs !! "message") as [m'|] eqn:Em; [|discriminate].
    rewrite lookup_delete_ne in H by done.
    destruct (arg_int _) as [z'|] eqn:Ez; [|discriminate].
    destruct (arg_str m') as [m''|] eqn:Es; [|discriminate].
    injection H as <- <- <-. apply arg_str_inv in Es as [-> ?]. cbn. eauto.
  - case_decide; [discriminate|]. unmonad. injection E as <- <-.
    destruct (arg_int _) as [z'|] eqn:Ez; [|discriminate].
    destruct (arg_str a) as [m''|] eqn:Es; [|discriminate].
    injection H as <- <- <-. apply arg_str_inv in Es as [-> ?]. cbn. eauto.
  - case_decide; [discriminate|]. case_decide; [discriminate|].
    unmonad. injection E as <- <-.
    destruct (arg_int _) as [z'|] eqn:Ez; [|discriminate].
    destruct (arg_str a) as [m''|] eqn:Es; [|discriminate].
    injection H as <- <- <-. apply arg_str_inv in Es as [-> ?]. cbn. eauto.
  - repeat (case_decide; [discriminate|]). discriminate.
Qed.

(** The base signature accepts a message, an optional status and any further
    options. *)
Lemma AuthException_args_positional (m : pyobj) (sv : option pyobj) (z : Z)
    (kwargs : gmap string pyobj) :
  arg_str m = Ok m -> arg_int (default (PyInt 400) sv) = Ok z ->
  kwargs !! "message" = None -> kwargs !! "status" = None ->
  AuthException_args (m :: option_list sv) kwargs = Ok (m, z, kwargs).
Proof.
  intros Hm Hv Hkm Hks. unfold AuthException_args.
  destruct sv as [v|]; cbn [option_list bind_params].
  - destruct (decide (is_Some (kwargs !! "message"))) as [[? H1]|_];
      [congruence|].
    destruct (decide (is_Some (kwargs !! "status"))) as [[? H1]|_];
      [congruence|].
    unmonad. cbn. cbn in Hv. by rewrite Hv, Hm.
  - destruct (decide (is_Some (kwargs !! "message"))) as [[? H1]|_];
      [congruence|].
    unmonad. cbn. rewrite Hks. cbn in Hv. cbn. rewrite Hv, Hm.
    by rewrite delete_id.
Qed.

(** What a successful binding of a subtype's signature requires: at most one
    positional argument, no option of a name other than [message], and a
    message that is text or [None]. *)
Lemma subtype_args_inv (args : list pyobj) (kwargs : gmap string pyobj)
    (m : pyobj) :
  subtype_args args kwargs = Ok m ->
  (m = PyNone \/ exists s, m = PyStr s)
  /\ (length args <= 1)%nat
  /\ (forall k, k <> "message" -> kwargs !! k = None)
  /\ m = default PyNone (supplied 0 "message" args kwargs).
Proof.
  unfold subtype_args, supplied. intros H.
  destruct args as [|a [|b args]]; cbn in H.
  - unmonad. case_decide as Hd; [|discriminate].
    apply arg_str_inv in H as [-> ?]. repeat split; [done|cbn; lia|].
    intros k Hk. by rewrite <- (lookup_delete_ne kwargs "message" k), Hd.
  - case_decide; [discriminate|]. unmonad. case_decide as Hd; [|discriminate].
    apply arg_str_inv in H as [-> ?]. repeat split; [done|cbn; lia|].
    intros k _. by rewrite Hd.
  - case_decide; discriminate.
Qed.



(** ** What the constructors build *)

Lemma AuthException__init___run (args : list pyobj)
    (kwargs : gmap string pyobj) (self : instance) :
  AuthException__init__ args kwargs self =
    match AuthException_args args kwargs with
    | Ok (m, z, kw) =>
        Ok (tt, {| ob_type := ob_type self;
                   exc_args := [m];
                   ob_dict := attrs m z (default PyNone (kw !! "stacktrace"))
                                (ob_dict self) |})
    | Raise e => Raise e
    end.
Proof.
  unfold AuthException__init__. unmonad.
  destruct (AuthException_args args kwargs) as [[[m z] kw]|e]; [|done].
  unfold BaseException__init__, setattr, attrs, py_int. cbn.
  case_decide as Hd.
  - apply elem_of_dom in Hd as [v Hv]. unfold getitem. rewrite Hv. cbn.
    by rewrite insert_insert_eq.
  - apply not_elem_of_dom in Hd. by rewrite Hd.
Qed.

(** A fresh instance is an instance of its class. *)
Lemma tp_init_new (c : cls) (args a : list pyobj)
    (kwargs : gmap string pyobj) :
  tp_init c args kwargs (BaseException__new__ c a)
  = init_of c args kwargs (BaseException__new__ c a).
Proof.
  unfold tp_init, isinstance. cbn [ob_type BaseException__new__].
  by rewrite bool_decide_eq_true_2.
Qed.

Lemma construct_AuthException (args : list pyobj)
    (kwargs : gmap string pyobj) :
  construct AuthException args kwargs =
    match AuthException_args args kwargs with
    | Ok (m, z, kw) =>
        Ok {| ob_type := AuthException;
              exc_args := [m];
              ob_dict := attrs m z (default PyNone (kw !! "stacktrace")) ∅ |}
    | Raise e => Raise e
    end.
Proof.
  unfold construct. rewrite tp_init_new. cbn [init_of].
  rewrite AuthException__init___run.
  by destruct (AuthException_args args kwargs) as [[[m z] kw]|e].
Qed.

Ltac unfold_init :=
  cbn [init_of];
  unfold ConfigError__init__, UserNotFound__init__, Unauthorized__init__,
    InvalidAuth__init__, FailedAuth__init__, Forbidden__init__,
    AuthExpired__init__;
  unmonad.

(** A subtype passes on [message or default] and its own status, and no
    option. *)
Lemma construct_subtype (c : cls) (dm : string) (args : list pyobj)
    (kwargs : gmap string pyobj) :
  default_message c = Some dm ->
  construct c args kwargs =
    match subtype_args args kwargs with
    | Ok m =>
        Ok {| ob_type := c;
              exc_args := [py_or m (PyStr dm)];
              ob_dict := attrs (py_or m (PyStr dm)) (default_status c)
                           PyNone ∅ |}
    | Raise e => Raise e
    end.
Proof.
  intros Hdm. unfold construct. rewrite tp_init_new.
  destruct (subtype_args args kwargs) as [m|e] eqn:E.
  - apply subtype_args_inv in E as Hinv. destruct Hinv as ([->|[s ->]] & _).
    + destruct c; try discriminate; injection Hdm as <-; unfold_init;
        rewrite E, AuthException__init___run; reflexivity.
    + destruct c; try discriminate; injection Hdm as <-; unfold_init;
        rewrite E, AuthException__init___run;
        unfold py_or, truthy; destruct (String.eqb s EmptyString);
        reflexivity.
  - destruct c; try discriminate; unfold_init; by rewrite E.
Qed.

Lemma subtype_default (c : cls) :
  is_subtype c = true -> exists dm, default_message c = Some dm.
Proof. destruct c; cbn; [discriminate|eauto..]. Qed.

Lemma default_message_nonempty (c : cls) (dm : string) :
  default_message c = Some dm -> dm <> EmptyString.
Proof. destruct c; cbn; intros [= <-]; discriminate. Qed.

Lemma attrs_message (m : pyobj) (z : Z) (st : pyobj) (d : gmap string pyobj) :
  attrs m z st d !! "message" = Some m.
Proof.
  unfold attrs. rewrite lookup_insert_ne by done. apply lookup_insert_eq.
Qed.

Lemma attrs_status (m : pyobj) (z : Z) (st : pyobj) (d : gmap string pyobj) :
  attrs m z st d !! "status" = Some (PyInt z).
Proof. unfold attrs. by rewrite lookup_insert_eq. Qed.

Lemma attrs_stacktrace (m : pyobj) (z : Z) (st : pyobj)
    (d : gmap string pyobj) :
  attrs m z st d !! "stacktrace" = Some st.
Proof.
  unfold attrs. rewrite !lookup_insert_ne by done. apply lookup_insert_eq.
Qed.

(** [message or default] for a message that is text or [None]. *)
Lemma py_or_message (m : pyobj) (dm : string) :
  (m = PyNone \/ exists s, m = PyStr s) -> dm <> EmptyString ->
  exists s, py_or m (PyStr dm) = PyStr s /\ s <> EmptyString
    /\ (m = PyNone \/ m = PyStr EmptyString -> s = dm)
    /\ (forall t, m = PyStr t -> t <> EmptyString -> s = t).
Proof.
  intros [->|[t ->]] Hdm; unfold py_or, truthy.
  - exists dm. split_and!; try done.
  - destruct (String.eqb_spec t EmptyString) as [->|Hne]; cbn.
    + exists dm. split_and!; try done. by intros ? [= <-] ?.
    + exists t. split_and!; try done.
      * intros [?|[= ?]]; done.
      * by intros ? [= <-] ?.
Qed.

(** Every instance a call returns was left by [AuthException.__init__] with
    exactly the three attributes, the message being text or [None], the
    status a C [int] and the stack trace the option of that name, if any. *)
Lemma construct_inv (c : cls) (args : list pyobj)
    (kwargs : gmap string pyobj) (self : instance) :
  construct c args kwargs = Ok self ->
  exists m z,
    self = {| ob_type := c; exc_args := [m];
              ob_dict := attrs m z (default PyNone (kwargs !! "stacktrace"))
                           ∅ |}
    /\ (m = PyNone \/ exists s, m = PyStr s)
    /\ INT_MIN <= z <= INT_MAX.
Proof.
  intros H. destruct (decide (c = AuthException)) as [->|Hc].
  - rewrite construct_AuthException in H.
    destruct (AuthException_args args kwargs) as [[[m z] kw]|e] eqn:E;
      [|discriminate].
    apply AuthException_args_inv in E as (_ & Hm & Hz & Hst).
    exists m, z. injection H as <-. rewrite Hst.
    eauto using arg_int_range.
  - destruct (subtype_default c) as [dm Hdm]; [by destruct c|].
    rewrite (construct_subtype c dm) in H by done.
    destruct (subtype_args args kwargs) as [m|e] eqn:E; [|discriminate].
    apply subtype_args_inv in E as (Hm & _ & Hkw & _).
    destruct (py_or_message m dm Hm) as (s & Hs & _);
      [by eapply default_message_nonempty|].
    exists (PyStr s), (default_status c). injection H as <-.
    rewrite Hs, Hkw by done. split_and!; [done|eauto|..];
      destruct c; by vm_compute.
Qed.

(** ** Defaults of the subtypes *)

(** C2: constructed with no arguments, each of the seven subtypes carries
    exactly the message and the status of the table: ConfigError
    ("Auth Configuration Error.", 500), UserNotFound ("User doesn't exists.",
    404), Unauthorized ("Unauthorized", 401), InvalidAuth ("Invalid
    Authentication", 401), FailedAuth ("Failed Authorization", 403),
    Forbidden ("Forbidden", 403), AuthExpired ("Gone: Authentication
    Expired.", 410). *)
Theorem subtype_defaults :
  constructs ConfigError [] ∅ (PyStr "Auth Configuration Error.") 500
  /\ constructs UserNotFound [] ∅ (PyStr "User doesn't exists.") 404
  /\ constructs Unauthorized [] ∅ (PyStr "Unauthorized") 401
  /\ constructs InvalidAuth [] ∅ (PyStr "Invalid Authentication") 401
  /\ constructs FailedAuth [] ∅ (PyStr "Failed Authorization") 403
  /\ constructs Forbidden [] ∅ (PyStr "Forbidden") 403
  /\ constructs AuthExpired [] ∅ (PyStr "Gone: Authentication Expired.") 410.
Proof. split_and!; (eexists; split_and!; [reflexivity|done|done]). Qed.

(** The table of defaults agrees with the constructors. *)
Lemma subtype_no_arguments (c : cls) (dm : string) :
  default_message c = Some dm ->
  constructs c [] ∅ (PyStr dm) (default_status c).
Proof.
  intros Hdm. eexists. rewrite (construct_subtype c dm) by done.
  split_and!; [reflexivity|apply attrs_message|apply attrs_status].
Qed.

(** C3, as stated, fails: the module does not have eight subtypes, nor nine
    types. *)
Lemma not_nine_types :
  ~ (length subtypes = 8%nat /\ card cls = 9%nat).
Proof. intros [H _]. vm_compute in H. discriminate. Qed.

(** C3, amended: the module defines the base type and seven named subtypes,
    eight distinct types in all, and each subtype constructed without
    arguments carries a message and a status of its own. *)
Theorem eight_types :
  subtypes = [ConfigError; UserNotFound; Unauthorized; InvalidAuth;
              FailedAuth; Forbidden; AuthExpired]
  /\ length subtypes = 7%nat
  /\ card cls = 8%nat
  /\ NoDup (AuthException :: subtypes)
  /\ Forall (fun c => exists dm,
               default_message c = Some dm
               /\ constructs c [] ∅ (PyStr dm) (default_status c)) subtypes.
Proof.
  split_and!; try reflexivity.
  - by apply (bool_decide_unpack _).
  - apply Forall_forall. intros c Hc.
    destruct (subtype_default c) as [dm Hdm].
    { by apply list_elem_of_filter in Hc as [? _]. }
    eauto using subtype_no_arguments.
Qed.

(** ** Message and status of a subtype *)




(** C4: a subtype constructed with a non-empty message, positionally or by
    keyword, stores that message and keeps its default status. *)
Theorem subtype_explicit_message (c : cls) (s : string) :
  is_subtype c = true -> s <> EmptyString ->
  constructs c [PyStr s] ∅ (PyStr s) (default_status c)
  /\ constructs c [] {["message" := PyStr s]} (PyStr s) (default_status c).
Proof.
  intros Hc Hs. destruct (subtype_default c Hc) as [dm Hdm].
  assert (py_or (PyStr s) (PyStr dm) = PyStr s) as Hor.
  { unfold py_or, truthy. by destruct (String.eqb_spec s EmptyString). }
  split; eexists; rewrite (construct_subtype c dm) by done.
  - change (subtype_args [PyStr s] ∅) with (Ok (PyStr s)).
    cbv beta iota. rewrite Hor.
    split_and!; [reflexivity|apply attrs_message|apply attrs_status].
  - change (subtype_args [] {["message" := PyStr s]}) with (Ok (PyStr s)).
    cbv beta iota. rewrite Hor.
    split_and!; [reflexivity|apply attrs_message|apply attrs_status].
Qed.

(** [Forbidden("nope")] and [Forbidden(message="nope")]. *)
Lemma subtype_explicit_message_witness :
  constructs Forbidden [PyStr "nope"] ∅ (PyStr "nope") 403
  /\ constructs Forbidden [] {["message" := PyStr "nope"]} (PyStr "nope") 403.
Proof.
  apply (subtype_explicit_message Forbidden "nope"); [reflexivity|discriminate].
Defined.

(** C5: a subtype constructed with the message omitted, [None] or empty,
    positionally or by keyword, stores its default message; and the message
    of every instance of a subtype, however constructed, is a non-empty
    text. *)
Theorem subtype_message_nonempty (c : cls) :
  is_subtype c = true ->
  (exists dm, default_message c = Some dm
     /\ constructs c [] ∅ (PyStr dm) (default_status c)
     /\ constructs c [PyNone] ∅ (PyStr dm) (default_status c)
     /\ constructs c [PyStr EmptyString] ∅ (PyStr dm) (default_status c)
     /\ constructs c [] {["message" := PyNone]} (PyStr dm) (default_status c)
     /\ constructs c [] {["message" := PyStr EmptyString]} (PyStr dm)
          (default_status c))
  /\ (forall args kwargs self,
        construct c args kwargs = Ok self ->
        exists s, attr "message" self = Some (PyStr s) /\ s <> EmptyString).
Proof.
  intros Hc. destruct (subtype_default c Hc) as [dm Hdm]. split.
  - exists dm. split_and!; [done|..]; eexists;
      rewrite (construct_subtype c dm) by done;
      (split_and!; [reflexivity|apply attrs_message|apply attrs_status]).
  - intros args kwargs self H. rewrite (construct_subtype c dm) in H by done.
    destruct (subtype_args args kwargs) as [m|e] eqn:E; [|discriminate].
    apply subtype_args_inv in E as (Hm & _).
    destruct (py_or_message m dm Hm) as (s & Hs & Hne & _);
      [by eapply default_message_nonempty|].
    exists s. injection H as <-. rewrite Hs. split; [apply attrs_message|done].
Qed.

(** [Unauthorized()], the same with an empty message, and a call with a
    message. *)
Lemma subtype_message_nonempty_witness :
  constructs Unauthorized [] ∅ (PyStr "Unauthorized") 401
  /\ constructs Unauthorized [PyStr EmptyString] ∅ (PyStr "Unauthorized") 401
  /\ exists self, construct Unauthorized [PyStr "expired token"] ∅ = Ok self
       /\ exists s, attr "message" self = Some (PyStr s) /\ s <> EmptyString.
Proof.
  destruct (subtype_message_nonempty Unauthorized eq_refl)
    as [(dm & Hdm & H0 & _ & H2 & _) Hall].
  injection Hdm as <-. split_and!; [exact H0|exact H2|].
  eexists. split; [reflexivity|].
  apply (Hall [PyStr "expired token"] ∅). reflexivity.
Defined.

(** ** The stack trace option *)




(** ** Reading an instance *)

(** C7: on every instance of every type, however constructed, [get()]
    returns exactly the stored message; it does not raise and it leaves the
    instance as it was. *)
Theorem get_returns_message (c : cls) (args : list pyobj)
    (kwargs : gmap string pyobj) (self : instance) :
  construct c args kwargs = Ok self ->
  exists m, attr "message" self = Some m
    /\ AuthException_get self = Ok (m, self).
Proof.
  intros H. apply construct_inv in H as (m & z & -> & _).
  exists m. unfold AuthException_get, getattr, attr. cbn [ob_dict].
  by rewrite attrs_message.
Qed.

(** [Forbidden("nope").get()]. *)
Lemma get_returns_message_witness :
  exists self, construct Forbidden [PyStr "nope"] ∅ = Ok self
    /\ exists m, attr "message" self = Some m
         /\ AuthException_get self = Ok (m, self).
Proof.
  eexists. split; [reflexivity|].
  apply (get_returns_message Forbidden [PyStr "nope"] ∅). reflexivity.
Defined.

(** C8: after any construction the instance has a [status] and it is an
    integer (a C [int]).  On a subtype it is the subtype's default; on the
    base it is 400 when no status is supplied, and otherwise the supplied
    value converted to an integer. *)
Theorem status_integer (c : cls) (args : list pyobj)
    (kwargs : gmap string pyobj) (self : instance) :
  construct c args kwargs = Ok self ->
  exists z, attr "status" self = Some (PyInt z)
    /\ INT_MIN <= z <= INT_MAX
    /\ (is_subtype c = true -> z = default_status c)
    /\ (c = AuthException -> supplied 1 "status" args kwargs = None ->
          z = 400)
    /\ (c = AuthException ->
          forall v, supplied 1 "status" args kwargs = Some v ->
                    arg_int v = Ok z).
Proof.
  intros H. destruct (decide (c = AuthException)) as [->|Hc].
  - rewrite construct_AuthException in H.
    destruct (AuthException_args args kwargs) as [[[m z] kw]|e] eqn:E;
      [|discriminate].
    apply AuthException_args_inv in E as (_ & _ & Hz & _).
    exists z. injection H as <-.
    refine (conj _ (conj _ (conj _ (conj _ _))));
      [apply attrs_status|by eapply arg_int_range|done|..].
    + intros _ Hs. rewrite Hs in Hz. by injection Hz as <-.
    + intros _ v Hs. by rewrite Hs in Hz.
  - destruct (subtype_default c) as [dm Hdm]; [by destruct c|].
    rewrite (construct_subtype c dm) in H by done.
    destruct (subtype_args args kwargs); [|discriminate].
    exists (default_status c). injection H as <-.
    refine (conj _ (conj _ (conj _ (conj _ _))));
      [apply attrs_status|destruct c; by vm_compute|done..].
Qed.

(** The base without a status, and with [True] for a status. *)
Lemma status_integer_witness :
  (exists self, construct AuthException [PyStr "bad request"] ∅ = Ok self
     /\ attr "status" self = Some (PyInt 400))
  /\ (exists self,
        construct AuthException [PyStr "locked"; PyBool true] ∅ = Ok self
        /\ attr "status" self = Some (PyInt 1)).
Proof.
  split; eexists; (split; [reflexivity|]).
  - edestruct (status_integer AuthException [PyStr "bad request"] ∅)
      as (z & Hz & _ & _ & H400 & _); [reflexivity|].
    etrans; [exact Hz|]. by rewrite (H400 eq_refl eq_refl).
  - edestruct (status_integer AuthException [PyStr "locked"; PyBool true] ∅)
      as (z & Hz & _ & _ & _ & Hv); [reflexivity|].
    etrans; [exact Hz|]. specialize (Hv eq_refl (PyBool true) eq_refl).
    by injection Hv as <-.
Defined.

(** Both reads leave any instance as they found it, whenever they return. *)
Lemma perform_frame (r : read) (self self' : instance) (v : pyobj) :
  perform r self = Ok (v, self') -> self' = self.
Proof.
  destruct r; cbn; unfold AuthException__str__, AuthException_get, getattr;
    unmonad; change (tp_dict "message") with (@None pyobj);
    destruct (ob_dict self !! "message"); cbn; intros [=]; congruence.
Qed.

Lemma perform_answer (r : read) (self : instance) (m : pyobj) :
  attr "message" self = Some m -> perform r self = Ok (answer m r, self).
Proof.
  unfold attr. intros Hm.
  destruct r; cbn; unfold AuthException__str__, AuthException_get, getattr;
    unmonad; by rewrite Hm.
Qed.

(** C9: the operations on an instance, [get()] and the conversion to a
    string, never change it.  Any sequence of them, run on an instance of any
    type however constructed, returns the answers in order, [get()] giving
    the message and the conversion giving the module's name, a colon and the
    message, and leaves [message], [status], [stacktrace] and the rest of the
    instance unchanged. *)
Theorem reads_leave_instance (c : cls) (args : list pyobj)
    (kwargs : gmap string pyobj) (self : instance) (rs : list read) :
  construct c args kwargs = Ok self ->
  exists m, attr "message" self = Some m
    /\ perform_all rs self = Ok (answer m <$> rs, self).
Proof.
  intros H. apply construct_inv in H as (m & z & -> & _).
  match goal with |- context [attr _ ?i] => set (self := i) end.
  assert (attr "message" self = Some m) as Hm by apply attrs_message.
  exists m. split; [done|].
  induction rs as [|r rs IH]; [done|].
  cbn [perform_all]. unmonad.
  rewrite (perform_answer r self m Hm), IH. reflexivity.
Qed.

(** Three reads of [AuthExpired()]. *)
Lemma reads_leave_instance_witness :
  exists self, construct AuthExpired [] ∅ = Ok self
    /\ perform_all [Str; Get; Str] self
       = Ok ([PyStr "navigator_auth.exceptions: Gone: Authentication Expired.";
              PyStr "Gone: Authentication Expired.";
              PyStr "navigator_auth.exceptions: Gone: Authentication Expired."],
             self).
Proof.
  eexists. split; [reflexivity|].
  edestruct (reads_leave_instance AuthExpired [] ∅) as (m & Hm & Hrun);
    [reflexivity|].
  etrans; [exact Hrun|]. vm_compute in Hm. by injection Hm as <-.
Defined.

(** ** Options of the base constructor *)

(** C10: constructing the base type with a message, optionally a status, and
    any options of other names succeeds.  The instance has the message and
    the status the positional arguments determine, its [stacktrace] is the
    option of that name ([None] without it), it has no other attribute, and
    it is the same instance for any two sets of options that agree on
    [stacktrace]. *)
Theorem extra_options_ignored (m : pyobj) (sv : option pyobj) (z : Z)
    (kwargs : gmap string pyobj) :
  arg_str m = Ok m ->
  arg_int (default (PyInt 400) sv) = Ok z ->
  kwargs !! "message" = None -> kwargs !! "status" = None ->
  exists self,
    construct AuthException (m :: option_list sv) kwargs = Ok self
    /\ attr "message" self = Some m
    /\ attr "status" self = Some (PyInt z)
    /\ attr "stacktrace" self = Some (default PyNone (kwargs !! "stacktrace"))
    /\ (forall k, is_Some (attr k self)
                  <-> k ∈ ["message"; "status"; "stacktrace"])
    /\ (forall kwargs' : gmap string pyobj,
          kwargs' !! "message" = None -> kwargs' !! "status" = None ->
          kwargs' !! "stacktrace" = kwargs !! "stacktrace" ->
          construct AuthException (m :: option_list sv) kwargs' = Ok self).
Proof.
  intros Hm Hz Hkm Hks. eexists. rewrite construct_AuthException.
  rewrite (AuthException_args_positional m sv z) by done.
  split_and!; [reflexivity|apply attrs_message|apply attrs_status
              |apply attrs_stacktrace|..].
  - intros k. unfold attr, attrs. cbn [ob_dict].
    rewrite !lookup_insert_is_Some, lookup_empty, !elem_of_cons, elem_of_nil.
    pose proof (@is_Some_None pyobj) as Hnone.
    destruct (decide (k = "status")), (decide (k = "message")),
      (decide (k = "stacktrace")); intuition congruence.
  - intros kwargs' Hkm' Hks' Hst. rewrite construct_AuthException.
    rewrite (AuthException_args_positional m sv z) by done.
    by rewrite Hst.
Qed.

(** The base with two options besides [stacktrace]. *)
Lemma extra_options_ignored_witness :
  exists self,
    construct AuthException [PyStr "denied"; PyInt 418]
      {["realm" := PyStr "admin"; "stacktrace" := PyStr "tb"; "retry" := PyInt 3]}
      = Ok self
    /\ attr "message" self = Some (PyStr "denied")
    /\ attr "status" self = Some (PyInt 418)
    /\ attr "stacktrace" self = Some (PyStr "tb")
    /\ attr "realm" self = None
    /\ construct AuthException [PyStr "denied"; PyInt 418]
         {["stacktrace" := PyStr "tb"]} = Ok self.
Proof.
  destruct (extra_options_ignored (PyStr "denied") (Some (PyInt 418)) 418
              {["realm" := PyStr "admin"; "stacktrace" := PyStr "tb";
                "retry" := PyInt 3]})
    as (self & Hc & Hmsg & Hst & Htb & Hdom & Hsame); try reflexivity.
  exists self. split_and!; [exact Hc|exact Hmsg|exact Hst|exact Htb| |].
  - destruct (attr "realm" self) eqn:E; [|done].
    assert (is_Some (attr "realm" self)) as Hs by (by rewrite E).
    apply Hdom in Hs. exfalso. revert Hs.
    rewrite !elem_of_cons, elem_of_nil. intuition discriminate.
  - apply Hsame; reflexivity.
Defined.

(** ** Calls the constructors refuse *)






(** X2: the base type has no default message: a call that supplies none,
    positionally or by keyword, raises [TypeError], whatever else it
    passes. *)
Theorem base_requires_message (kwargs : gmap string pyobj) :
  kwargs !! "message" = None ->
  construct AuthException [] kwargs = Raise TypeError.
Proof.
  intros Hkm. rewrite construct_AuthException.
  unfold AuthException_args. cbn [bind_params]. unmonad. by rewrite Hkm.
Qed.

Lemma base_requires_message_witness :
  construct AuthException [] {["status" := PyInt 401]} = Raise TypeError.
Proof. by apply base_requires_message. Defined.

(** X3: a message that is neither text nor [None] never makes an instance,
    of any class, whether it is passed positionally or by keyword. *)
Theorem ill_typed_message_refused (c : cls) (args : list pyobj)
    (kwargs : gmap string pyobj) (m : pyobj) :
  supplied 0 "message" args kwargs = Some m ->
  arg_str m = Raise TypeError ->
  exists e, construct c args kwargs = Raise e.
Proof.
  intros Hs Hm. destruct (construct c args kwargs) as [self|e] eqn:H;
    [exfalso|eauto].
  assert (m = PyNone \/ exists s, m = PyStr s) as [->|[s ->]];
    [|discriminate..].
  destruct (decide (c = AuthException)) as [->|Hc].
  - rewrite construct_AuthException in H.
    destruct (AuthException_args args kwargs) as [[[m' z] kw]|e'] eqn:E;
      [|discriminate].
    apply AuthException_args_inv in E as (Hs' & Hm' & _).
    rewrite Hs in Hs'. by injection Hs' as <-.
  - destruct (subtype_default c) as [dm Hdm]; [by destruct c|].
    rewrite (construct_subtype c dm) in H by done.
    destruct (subtype_args args kwargs) as [m'|e'] eqn:E; [|discriminate].
    apply subtype_args_inv in E as (Hm' & _ & _ & ->).
    by rewrite Hs in Hm'.
Qed.

Lemma ill_typed_message_refused_witness :
  exists e, construct UserNotFound [] {["message" := PyInt 42]} = Raise e.
Proof.
  by apply (ill_typed_message_refused UserNotFound [] _ (PyInt 42)).
Defined.

(** X4: a parameter may be given once: a positional message together with
    the keyword [message] raises [TypeError] on every class, and so does, on
    the base type, a positional status together with the keyword [status],
    or a third positional argument. *)
Theorem argument_given_twice (c : cls) (m : pyobj) (args : list pyobj)
    (kwargs : gmap string pyobj) :
  is_Some (kwargs !! "message")
  \/ (c = AuthException /\ (2 <= length args)%nat)
  \/ (c = AuthException /\ (1 <= length args)%nat
      /\ is_Some (kwargs !! "status")) ->
  construct c (m :: args) kwargs = Raise TypeError.
Proof.
  intros H. destruct (decide (c = AuthException)) as [->|Hc].
  - rewrite construct_AuthException. unfold AuthException_args.
    destruct H as [H|[[_ H]|(_ & H & Hs)]].
    + cbn [bind_params]. by rewrite decide_True.
    + by rewrite bind_params_too_many by (cbn; lia).
    + destruct args as [|v args]; [cbn in H; lia|]. cbn [bind_params].
      case_decide; [done|]. by rewrite decide_True.
  - destruct H as [H|[[? _]|[? _]]]; try done.
    destruct (subtype_default c) as [dm Hdm]; [by destruct c|].
    rewrite (construct_subtype c dm) by done.
    unfold subtype_args. cbn [bind_params]. by rewrite decide_True.
Qed.

Lemma argument_given_twice_witness :
  construct AuthExpired [PyStr "gone"] {["message" := PyStr "gone"]}
    = Raise TypeError
  /\ construct AuthException [PyStr "a"; PyInt 401; PyStr "b"] ∅
       = Raise TypeError
  /\ construct AuthException [PyStr "a"; PyInt 401] {["status" := PyInt 403]}
       = Raise TypeError.
Proof.
  split_and!.
  - apply argument_given_twice. left. by eexists.
  - apply argument_given_twice. right. left. by cbn.
  - apply argument_given_twice. right. right. split_and!; [done|cbn; lia|].
    by eexists.
Defined.

(** The base signature binds a message and an optional status to the same
    parameters whether they come by position or by keyword. *)
Lemma AuthException_args_forms (m : pyobj) (sv : option pyobj)
    (kwargs : gmap string pyobj) :
  kwargs !! "message" = None -> kwargs !! "status" = None ->
  let bound :=
    status ← arg_int (default (PyInt 400) sv);
    message ← arg_str m;
    mret (message, status, kwargs) in
  let with_status :=
    from_option (fun v => <["status" := v]> kwargs) kwargs sv in
  AuthException_args (m :: option_list sv) kwargs = bound
  /\ AuthException_args [m] with_status = bound
  /\ AuthException_args [] (<["message" := m]> with_status) = bound.
Proof.
  intros Hkm Hks bound with_status. subst bound.
  assert (with_status !! "message" = None) as Hwm.
  { subst with_status. destruct sv; cbn; [|done].
    by rewrite lookup_insert_ne. }
  assert (with_status !! "status" = sv) as Hws.
  { subst with_status. destruct sv; cbn; [|done]. by rewrite lookup_insert_eq. }
  assert (delete "status" with_status = kwargs) as Hwd.
  { subst with_status. destruct sv; cbn; [|by apply delete_id].
    rewrite delete_insert_eq. by apply delete_id. }
  unfold AuthException_args. split_and!.
  - destruct sv as [v|];
      [change (option_list (Some v)) with [v]
      |change (option_list None) with (@nil pyobj)]; cbn [bind_params].
    + rewrite !decide_False by (rewrite ?Hkm, ?Hks; apply is_Some_None).
      by unmonad.
    + rewrite !decide_False by (rewrite ?Hkm; apply is_Some_None).
      unmonad. by rewrite Hks, delete_id.
  - cbn [bind_params].
    rewrite decide_False by (rewrite Hwm; apply is_Some_None).
    unmonad. by rewrite Hws, Hwd.
  - cbn [bind_params]. unmonad.
    rewrite lookup_insert_eq, delete_insert_eq, (delete_id with_status) by done.
    by rewrite Hws, Hwd.
Qed.

Lemma subtype_args_forms (m : pyobj) :
  subtype_args [m] ∅ = arg_str m
  /\ subtype_args [] {["message" := m]} = arg_str m.
Proof. split; reflexivity. Qed.

(** X5: on the base type, with a message that is text or [None], an
    integer status outside of -2^31 .. 2^31 - 1 stops the construction with
    [OverflowError], and a status that is text or [None] stops it with
    [TypeError], whether the status is positional or the keyword
    [status]. *)
Theorem status_not_convertible (m : pyobj) (kwargs : gmap string pyobj) :
  arg_str m = Ok m ->
  kwargs !! "message" = None -> kwargs !! "status" = None ->
  (forall z, ~ (INT_MIN <= z <= INT_MAX) ->
     construct AuthException [m; PyInt z] kwargs = Raise OverflowError
     /\ construct AuthException [m] (<["status" := PyInt z]> kwargs)
        = Raise OverflowError)
  /\ (forall v, v = PyNone \/ (exists s, v = PyStr s) ->
        construct AuthException [m; v] kwargs = Raise TypeError
        /\ construct AuthException [m] (<["status" := v]> kwargs)
           = Raise TypeError).
Proof.
  intros Hm Hkm Hks.
  assert (forall v e, arg_int v = Raise e ->
            construct AuthException [m; v] kwargs = Raise e
            /\ construct AuthException [m] (<["status" := v]> kwargs)
               = Raise e) as Hfail.
  { intros v e Hv.
    destruct (AuthException_args_forms m (Some v) kwargs Hkm Hks)
      as (Hpos & Hkw & _).
    change (option_list (Some v)) with [v] in Hpos.
    change (from_option _ kwargs (Some v)) with (<["status" := v]> kwargs)
      in Hkw.
    rewrite !construct_AuthException, Hpos, Hkw. unmonad.
    change (default (PyInt 400) (Some v)) with v. by rewrite Hv. }
  split.
  - intros z Hz. apply Hfail. cbn. by rewrite decide_False.
  - intros v [->|[s ->]]; by apply Hfail.
Qed.

Lemma status_not_convertible_witness :
  construct AuthException [PyStr "x"; PyInt (-2147483649)] ∅
    = Raise OverflowError
  /\ construct AuthException [PyStr "x"] {["status" := PyStr "401"]}
       = Raise TypeError.
Proof.
  destruct (status_not_convertible (PyStr "x") ∅ eq_refl
              (lookup_empty _) (lookup_empty _)) as [Hint Hother].
  split.
  - apply (Hint (-2147483649)). by vm_compute; intros [? ?].
  - apply (Hother (PyStr "401")). right. by eexists.
Defined.

(** X6: arguments may come by position or by keyword with the same result.
    On the base type, [AuthException(m, v, **kw)], [AuthException(m,
    status=v, **kw)] and [AuthException(message=m, status=v, **kw)] give the
    same instance or the same error, with or without the status; on a
    subtype so do [c(m)] and [c(message=m)]. *)
Theorem keyword_or_positional (m : pyobj) (sv : option pyobj)
    (kwargs : gmap string pyobj) :
  kwargs !! "message" = None -> kwargs !! "status" = None ->
  let with_status :=
    from_option (fun v => <["status" := v]> kwargs) kwargs sv in
  construct AuthException [m] with_status
    = construct AuthException (m :: option_list sv) kwargs
  /\ construct AuthException [] (<["message" := m]> with_status)
     = construct AuthException (m :: option_list sv) kwargs
  /\ (forall c, is_subtype c = true ->
        construct c [] {["message" := m]} = construct c [m] ∅).
Proof.
  intros Hkm Hks with_status.
  destruct (AuthException_args_forms m sv kwargs Hkm Hks)
    as (Hpos & Hkw & Hkw2).
  fold with_status in Hkw, Hkw2.
  rewrite !construct_AuthException, Hpos, Hkw, Hkw2. split_and!; [done..|].
  intros c Hc. destruct (subtype_default c Hc) as [dm Hdm].
  rewrite !(construct_subtype c dm) by done.
  destruct (subtype_args_forms m) as [-> ->]. done.
Qed.

Lemma keyword_or_positional_witness :
  construct AuthException [PyStr "teapot"] {["status" := PyInt 418]}
    = construct AuthException [PyStr "teapot"; PyInt 418] ∅
  /\ construct AuthException []
       {["message" := PyStr "teapot"; "status" := PyInt 418]}
     = construct AuthException [PyStr "teapot"; PyInt 418] ∅
  /\ construct InvalidAuth [] {["message" := PyStr "teapot"]}
     = construct InvalidAuth [PyStr "teapot"] ∅.
Proof.
  destruct (keyword_or_positional (PyStr "teapot") (Some (PyInt 418)) ∅
              (lookup_empty _) (lookup_empty _)) as (H1 & H2 & H3).
  split_and!; [exact H1|exact H2|by apply H3].
Defined.

(** ** Subtypes and the base constructor *)

(** X7: a subtype adds nothing but its defaults: apart from its class, the
    instance a subtype's constructor returns is the one the base constructor
    returns for [message or default] and the subtype's status, with no
    option. *)
Theorem subtype_as_base (c : cls) (dm : string) (args : list pyobj)
    (kwargs : gmap string pyobj) (self : instance) :
  default_message c = Some dm ->
  construct c args kwargs = Ok self ->
  construct AuthException
    [py_or (default PyNone (supplied 0 "message" args kwargs)) (PyStr dm);
     PyInt (default_status c)] ∅
  = Ok {| ob_type := AuthException;
          exc_args := exc_args self;
          ob_dict := ob_dict self |}.
Proof.
  intros Hdm H. rewrite (construct_subtype c dm) in H by done.
  destruct (subtype_args args kwargs) as [m|e] eqn:E; [|discriminate].
  apply subtype_args_inv in E as (Hm & _ & _ & Hsup). rewrite <- Hsup.
  destruct (py_or_message m dm Hm) as (s & Hs & _);
    [by eapply default_message_nonempty|].
  injection H as <-. rewrite Hs. rewrite construct_AuthException.
  rewrite (AuthException_args_positional (PyStr s)
             (Some (PyInt (default_status c))) (default_status c));
    [done|done|by destruct c|done|done].
Qed.

Lemma subtype_as_base_witness :
  exists self, construct FailedAuth [] ∅ = Ok self
    /\ construct AuthException [PyStr "Failed Authorization"; PyInt 403] ∅
       = Ok {| ob_type := AuthException;
               exc_args := exc_args self;
               ob_dict := ob_dict self |}.
Proof.
  destruct (construct FailedAuth [] ∅) as [self|e] eqn:E;
    [|by vm_compute in E].
  exists self. split; [done|].
  exact (subtype_as_base FailedAuth "Failed Authorization" [] ∅ self
           eq_refl E).
Defined.

(** X8: the calls a subtype's constructor accepts are exactly: no argument;
    one positional argument that is text or [None]; the keyword [message]
    alone, with such a value. *)
Theorem subtype_accepts_exactly (c : cls) (args : list pyobj)
    (kwargs : gmap string pyobj) :
  is_subtype c = true ->
  (exists self, construct c args kwargs = Ok self)
  <-> (exists m, arg_str m = Ok m
         /\ ((args = [] /\ kwargs = ∅ /\ m = PyNone)
             \/ (args = [m] /\ kwargs = ∅)
             \/ (args = [] /\ kwargs = {["message" := m]}))).
Proof.
  intros Hc. destruct (subtype_default c Hc) as [dm Hdm].
  rewrite (construct_subtype c dm) by done. split.
  - intros [self H].
    destruct (subtype_args args kwargs) as [m|e] eqn:E; [|discriminate].
    clear H. unfold subtype_args in E.
    destruct args as [|a [|b args]]; cbn [bind_params] in E.
    + unmonad. case_decide as Hd; [|discriminate].
      destruct (kwargs !! "message") as [v|] eqn:Hv; cbn in E.
      * assert (m = v) as -> by (by apply arg_str_inv in E as [? _]).
        exists v. split; [exact E|].
        right. right. split; [done|].
        by rewrite <- (insert_delete_id kwargs "message" v), Hd.
      * exists PyNone. split; [done|]. left. split_and!; try done.
        by rewrite <- Hd, delete_id.
    + case_decide; [discriminate|]. unmonad.
      case_decide as Hd; [|discriminate]. cbn in E.
      assert (m = a) as -> by (by apply arg_str_inv in E as [? _]).
      exists a. split; [exact E|]. by right; left.
    + by case_decide.
  - intros (m & Hm & [(-> & -> & ->)|[(-> & ->)|(-> & ->)]]).
    + eexists. reflexivity.
    + destruct (subtype_args_forms m) as [-> _]. rewrite Hm. by eexists.
    + destruct (subtype_args_forms m) as [_ ->]. rewrite Hm. by eexists.
Qed.

Lemma subtype_accepts_exactly_witness :
  (exists self, construct Forbidden [] {["message" := PyNone]} = Ok self)
  /\ ~ (exists self,
          construct Forbidden [PyStr "no"] {["realm" := PyStr "x"]} = Ok self).
Proof.
  split.
  - apply (subtype_accepts_exactly Forbidden); [reflexivity|].
    exists PyNone. split; [reflexivity|]. by right; right.
  - intros H. apply (subtype_accepts_exactly Forbidden) in H; [|reflexivity].
    destruct H as (m & _ & [(? & _)|[(_ & ?)|(? & _)]]); discriminate.
Defined.

(** [__init__] of any class, run on an instance in any state. *)
Lemma tp_init_run (c : cls) (args : list pyobj) (kwargs : gmap string pyobj)
    (self self' : instance) :
  tp_init c args kwargs self = Ok (tt, self') ->
  exists m z,
    self' = {| ob_type := ob_type self; exc_args := [m];
               ob_dict := attrs m z (default PyNone (kwargs !! "stacktrace"))
                            (ob_dict self) |}.
Proof.
  unfold tp_init. destruct (isinstance self c); [|discriminate].
  destruct (decide (c = AuthException)) as [->|Hc]; cbn [init_of].
  - rewrite AuthException__init___run.
    destruct (AuthException_args args kwargs) as [[[m z] kw]|e] eqn:E;
      [|discriminate].
    apply AuthException_args_inv in E as (_ & _ & _ & Hst).
    intros [= <-]. rewrite Hst. eauto.
  - assert (forall d s,
              AuthException_args [d] {["status" := PyInt s]}
              = (status ← arg_int (PyInt s); message ← arg_str d;
                 mret (message, status, ∅))) as Hargs.
    { intros d s.
      destruct (AuthException_args_forms d (Some (PyInt s)) ∅
                  (lookup_empty _) (lookup_empty _)) as (_ & H & _).
      exact H. }
    destruct (subtype_args args kwargs) as [m|e] eqn:E.
    + apply subtype_args_inv in E as Hinv.
      destruct Hinv as (_ & _ & Hkw & _). rewrite Hkw by done.
      destruct c; try done; unfold_init; rewrite E, AuthException__init___run,
        Hargs; unmonad; cbn [arg_int];
        (case_decide; [|discriminate]);
        (destruct (arg_str _); [|discriminate]); intros [= <-]; eauto.
    + destruct c; try done; unfold_init; by rewrite E.
Qed.

(** X9: [__init__] writes [args], [message], [status] and [stacktrace] and
    nothing else.  Run on an instance in any state, it keeps the class and
    every other attribute, sets [args] to the one-element tuple of the
    message, and sets [stacktrace] anew: to the option of that name, and to
    [None] without it, whatever the attribute held before. *)
Theorem init_frame (c : cls) (args : list pyobj) (kwargs : gmap string pyobj)
    (self self' : instance) :
  tp_init c args kwargs self = Ok (tt, self') ->
  ob_type self' = ob_type self
  /\ (exists m, exc_args self' = [m] /\ attr "message" self' = Some m)
  /\ attr "stacktrace" self' = Some (default PyNone (kwargs !! "stacktrace"))
  /\ (forall k, k ∉ ["message"; "status"; "stacktrace"] ->
        attr k self' = attr k self).
Proof.
  intros H. apply tp_init_run in H as (m & z & ->). unfold attr. cbn.
  split_and!; [done|exists m; split; [done|apply attrs_message]
              |apply attrs_stacktrace|].
  intros k Hk. unfold attrs.
  rewrite !lookup_insert_ne; [done|..]; intros <-; apply Hk;
    rewrite !elem_of_cons; tauto.
Qed.

Lemma init_frame_witness :
  exists self self',
    construct AuthException [PyStr "first"]
      {["stacktrace" := PyStr "tb"]} = Ok self
    /\ tp_init AuthException [PyStr "second"] ∅ self = Ok (tt, self')
    /\ attr "stacktrace" self = Some (PyStr "tb")
    /\ attr "stacktrace" self' = Some PyNone
    /\ exc_args self' = [PyStr "second"].
Proof.
  set (d := attrs (PyStr "first") 400 (PyStr "tb") ∅).
  set (self := {| ob_type := AuthException; exc_args := [PyStr "first"];
                  ob_dict := d |}).
  set (self' := {| ob_type := AuthException; exc_args := [PyStr "second"];
                   ob_dict := attrs (PyStr "second") 400 PyNone d |}).
  assert (tp_init AuthException [PyStr "second"] ∅ self = Ok (tt, self'))
    as Hinit by reflexivity.
  exists self, self'. split; [reflexivity|]. split; [exact Hinit|].
  split; [reflexivity|].
  destruct (init_frame AuthException [PyStr "second"] ∅ self self' Hinit)
    as (_ & _ & Hst & _).
  split; [exact Hst|reflexivity].
Defined.

(** X10: the default message tells the subtypes apart, the status does not:
    two subtypes constructed without arguments that carry the same message
    are the same class, while [Unauthorized] and [InvalidAuth] share the
    status 401, and [FailedAuth] and [Forbidden] the status 403. *)
Theorem default_message_identifies (c1 c2 : cls) (s1 s2 : instance) :
  is_subtype c1 = true -> is_subtype c2 = true ->
  construct c1 [] ∅ = Ok s1 -> construct c2 [] ∅ = Ok s2 ->
  (attr "message" s1 = attr "message" s2 -> c1 = c2)
  /\ (attr "status" s1 = attr "status" s2 ->
        c1 = c2
        \/ (c1 ∈ [Unauthorized; InvalidAuth] /\ c2 ∈ [Unauthorized; InvalidAuth])
        \/ (c1 ∈ [FailedAuth; Forbidden] /\ c2 ∈ [FailedAuth; Forbidden])).
Proof.
  intros H1 H2 E1 E2.
  destruct (subtype_default c1 H1) as [d1 Hd1].
  destruct (subtype_default c2 H2) as [d2 Hd2].
  rewrite (construct_subtype c1 d1) in E1 by done.
  rewrite (construct_subtype c2 d2) in E2 by done.
  change (subtype_args [] ∅) with (Ok PyNone) in *.
  injection E1 as <-. injection E2 as <-. unfold attr. cbn [ob_dict].
  rewrite !attrs_message, !attrs_status.
  change (py_or PyNone (PyStr d1)) with (PyStr d1).
  change (py_or PyNone (PyStr d2)) with (PyStr d2).
  split.
  - intros [= <-].
    destruct c1; try discriminate; injection Hd1 as <-;
      destruct c2; try discriminate; done.
  - intros [= Hst]. rewrite !elem_of_cons.
    destruct c1; try discriminate; destruct c2; try discriminate; tauto.
Qed.

Lemma default_message_identifies_witness :
  exists s1 s2,
    construct Unauthorized [] ∅ = Ok s1 /\ construct InvalidAuth [] ∅ = Ok s2
    /\ attr "status" s1 = attr "status" s2
    /\ attr "message" s1 <> attr "message" s2.
Proof.
  eexists. eexists. split; [reflexivity|]. split; [reflexivity|].
  split; [reflexivity|]. intros Heq.
  by pose proof (proj1 (default_message_identifies Unauthorized InvalidAuth
                          _ _ eq_refl eq_refl eq_refl eq_refl) Heq).
Defined.

(** ** Instances whose [__init__] has not run *)

(** X11: [status] can be read on any instance, in any state: an instance
    without a [status] of its own shows the 400 of the class.  [message] has
    no such fallback: on an instance without one, as [__new__] leaves it,
    [get()] and the conversion to a string raise [AttributeError]. *)
Theorem class_status_fallback (self : instance) :
  (exists v, getattr "status" self = Ok (v, self)
     /\ (attr "status" self = None -> v = PyInt 400))
  /\ (attr "message" self = None ->
        AuthException_get self = Raise AttributeError
        /\ AuthException__str__ self = Raise AttributeError).
Proof.
  unfold attr, AuthException_get, AuthException__str__, getattr. unmonad.
  split.
  - destruct (ob_dict self !! "status") as [v|]; [by exists v|].
    by exists (PyInt 400).
  - by intros ->.
Qed.

Lemma class_status_fallback_witness :
  getattr "status" (BaseException__new__ Forbidden [])
    = Ok (PyInt 400, BaseException__new__ Forbidden [])
  /\ AuthException_get (BaseException__new__ Forbidden [])
     = Raise AttributeError.
Proof.
  destruct (class_status_fallback (BaseException__new__ Forbidden []))
    as [(v & Hv & H400) Hmsg].
  split; [by rewrite Hv, (H400 eq_refl)|by apply Hmsg].
Defined.
